(** * kinder/quaternions/QuaternionEigen.hpp

    A shallow embedding of the two class templates [Quaternion<PrimType_>]
    and [UnitQuaternion<PrimType_>] of
    [kinder::quaternions::eigen_implementation], and the properties of their
    construction, conversion and mutation paths.

    - The template parameter [PrimType_] is a type [T] with a [Scalar]
      instance: the arithmetic the code (and Eigen below it) performs on
      coefficients.  Everything that only moves coefficients around is
      proved for every [Scalar]; what rests on the laws of arithmetic
      (a norm being exactly 1, an inverse being an inverse) is stated for
      the exact real numbers, instance [Scalar_R], and said to be so: it
      is either a statement in which nothing is rounded (a change of sign,
      a division by 1), or the exact-arithmetic part of a result whose
      other parts hold for every scalar type.  Instance [Scalar_double] is
      IEEE binary64, on which the definitions evaluate; the scenarios with
      concrete coefficients, and the inputs on which rounding or overflow
      decides, are run on it.
    - [Eigen::Quaternion<PrimType_>] is the native representation; module
      [Eigen] gives the members the wrapper calls.
    - The debug-only assertion is instrumented: a computation of type
      [run _ A] records how many unit-norm checks were executed and whether
      it returned or threw.
    - A C++ reference is a [Ref]: a way to load from and store into a part
      of an object.  A mutating member function maps the object [this] to
      its new state, together with what the call returns. *)

From Stdlib Require Import PrimFloat.
From Stdlib Require Import Reals Lra String.

Set Implicit Arguments.

(** ** Scalars: the template parameter [PrimType_] *)

Class Scalar (T : Type) : Type := {
  szero : T;               (* the literal 0 *)
  sone : T;                (* the literal 1 *)
  s1e_4 : T;               (* the literal 1e-4 *)
  sopp : T -> T;           (* unary minus *)
  sadd : T -> T -> T;
  ssub : T -> T -> T;
  smul : T -> T -> T;
  sdiv : T -> T -> T;
  ssqrt : T -> T;          (* std::sqrt *)
  sabs : T -> T;           (* std::abs *)
  sgtb : T -> T -> bool    (* operator> *)
}.

Declare Scope scalar_scope.
Delimit Scope scalar_scope with s.
Infix "+" := sadd : scalar_scope.
Infix "-" := ssub : scalar_scope.
Infix "*" := smul : scalar_scope.
Infix "/" := sdiv : scalar_scope.
Notation "- a" := (sopp a) : scalar_scope.
Infix ">?" := sgtb (at level 70, no associativity) : scalar_scope.

(** ** Build configuration, exceptions and instrumented results *)

(** The [_DBG] assertion macros expand to a check in a debug build and to
    nothing when [NDEBUG] is defined. *)
Inductive build : Type := DBG | NDEBUG.

(** What a failed unit-norm check throws.  The C++ type is
    [std::runtime_error]; the specification calls the condition
    [InvariantViolation] and has it carry the measured value, the expected
    value and the tolerance. *)
Inductive exn (T : Type) : Type :=
| InvariantViolation (measured expected tolerance : T) (message : string).

Inductive outcome (T A : Type) : Type :=
| Ok (a : A)
| Raise (e : exn T).
Arguments Ok {T A} a.
Arguments Raise {T A} e.

(** [checks] counts the unit-norm checks executed, [out] is how the
    computation ended. *)
Record run (T A : Type) : Type := Run { checks : nat; out : outcome T A }.

Definition ret {T A : Type} (a : A) : run T A := Run 0 (Ok a).

Definition bind {T A B : Type} (m : run T A) (k : A -> run T B) : run T B :=
  match out m with
  | Ok a => let r := k a in Run (checks m + checks r) (out r)
  | Raise e => Run (checks m) (Raise e)
  end.

Notation "m ;; k" := (bind m (fun _ => k))
  (at level 61, right associativity).

Definition raises {T A : Type} (m : run T A) : bool :=
  match out m with
  | Ok _ => false
  | Raise _ => true
  end.

(** ** References *)

Record Ref (O A : Type) : Type := MkRef {
  load : O -> A;
  store : A -> O -> O
}.

(** The reference [*this]. *)
Definition this_ref {O : Type} : Ref O O :=
  {| load := fun o => o; store := fun v _ => v |}.

(** A reference into a member sub-object: [inner] is reached through
    [outer]. *)
Definition sub_ref {O M A : Type} (outer : Ref O M) (inner : Ref M A) : Ref O A :=
  {| load := fun o => load inner (load outer o);
     store := fun v o => store outer (store inner v (load outer o)) o |}.

(** [return *this;] at the end of a mutating member function. *)
Definition return_this {O : Type} (this : O) : O * Ref O O := (this, this_ref).

(** ** Fixed-size Eigen vectors *)

(** [Eigen::Matrix<PrimType_,3,1>] *)
Record Vector3 (T : Type) : Type := MkVector3 { v3_0 : T; v3_1 : T; v3_2 : T }.

(** [Eigen::Matrix<PrimType_,4,1>] *)
Record Vector4 (T : Type) : Type :=
  MkVector4 { v4_0 : T; v4_1 : T; v4_2 : T; v4_3 : T }.

(** ** The native representation [Eigen::Quaternion<PrimType_>] *)

(** Eigen is an external library.  The members the wrapper calls are given
    with the meaning Eigen documents for them: the norm is the square root
    of the sum of the squared coefficients, [normalized] divides by the
    norm, [inverse] is the conjugate divided by the squared norm. *)
Module Eigen.

(** Eigen keeps the coefficients in the order x, y, z, w. *)
Record Quaternion (T : Type) : Type := Coeffs { x : T; y : T; z : T; w : T }.

Section Members.
Context {T : Type} `{Scalar T}.
Local Open Scope scalar_scope.

(** [Quaternion(w, x, y, z)]: the constructor takes w first. *)
Definition Quaternion_wxyz (w0 x0 y0 z0 : T) : Quaternion T :=
  {| x := x0; y := y0; z := z0; w := w0 |}.

Definition w_ref : Ref (Quaternion T) T :=
  {| load := @w T; store := fun v q => Coeffs (x q) (y q) (z q) v |}.
Definition x_ref : Ref (Quaternion T) T :=
  {| load := @x T; store := fun v q => Coeffs v (y q) (z q) (w q) |}.
Definition y_ref : Ref (Quaternion T) T :=
  {| load := @y T; store := fun v q => Coeffs (x q) v (z q) (w q) |}.
Definition z_ref : Ref (Quaternion T) T :=
  {| load := @z T; store := fun v q => Coeffs (x q) (y q) v (w q) |}.

Definition Identity : Quaternion T := Quaternion_wxyz sone szero szero szero.

Definition conjugate (q : Quaternion T) : Quaternion T :=
  Quaternion_wxyz (w q) (- x q) (- y q) (- z q).

Definition squaredNorm (q : Quaternion T) : T :=
  x q * x q + y q * y q + z q * z q + w q * w q.

Definition norm (q : Quaternion T) : T := ssqrt (squaredNorm q).

(** Every coefficient divided by a scalar. *)
Definition coeffs_div (q : Quaternion T) (s : T) : Quaternion T :=
  Coeffs (x q / s) (y q / s) (z q / s) (w q / s).

(** [conjugate().coeffs() / squaredNorm()]; the zero quaternion flags a
    quaternion that has no inverse. *)
Definition inverse (q : Quaternion T) : Quaternion T :=
  let n2 := squaredNorm q in
  if n2 >? szero then coeffs_div (conjugate q) n2
  else Coeffs szero szero szero szero.

Definition normalized (q : Quaternion T) : Quaternion T :=
  coeffs_div q (norm q).

Definition normalize (q : Quaternion T) : Quaternion T :=
  coeffs_div q (norm q).

(** The quaternion product, Hamiltonian convention. *)
Definition mul (a b : Quaternion T) : Quaternion T :=
  Quaternion_wxyz
    (w a * w b - x a * x b - y a * y b - z a * z b)
    (w a * x b + x a * w b + y a * z b - z a * y b)
    (w a * y b + y a * w b + z a * x b - x a * z b)
    (w a * z b + z a * w b + x a * y b - y a * x b).
End Members.

End Eigen.

(** ** The class templates *)

(** [Quaternion<PrimType_>] derives privately from
    [Eigen::Quaternion<PrimType_>] and has no data member of its own: an
    object is its base sub-object. *)
Record Quaternion (T : Type) : Type :=
  MkQuaternion { Quaternion_toImplementation : Eigen.Quaternion T }.

(** [UnitQuaternion<PrimType_>] holds one member, [unitQuternion_]. *)
Record UnitQuaternion (T : Type) : Type :=
  MkUnitQuaternion { unitQuternion_ : Quaternion T }.

Section Quaternion_members.
Context {T : Type} `{Scalar T}.
Local Open Scope scalar_scope.

Definition Quaternion_ctor_Base (other : Eigen.Quaternion T) : Quaternion T :=
  MkQuaternion other.

Definition Quaternion_ctor : Quaternion T :=
  Quaternion_ctor_Base (Eigen.Quaternion_wxyz szero szero szero szero).

Definition Quaternion_ctor_wxyz (w x y z : T) : Quaternion T :=
  MkQuaternion (Eigen.Quaternion_wxyz w x y z).

Definition Quaternion_ctor_w_imag (w : T) (imag : Vector3 T) : Quaternion T :=
  MkQuaternion (Eigen.Quaternion_wxyz w (v3_0 imag) (v3_1 imag) (v3_2 imag)).

Definition Quaternion_ctor_Vector4 (vector4 : Vector4 T) : Quaternion T :=
  MkQuaternion
    (Eigen.Quaternion_wxyz (v4_0 vector4) (v4_1 vector4) (v4_2 vector4) (v4_3 vector4)).

(** The non-const [toImplementation()]: the base sub-object by reference. *)
Definition Quaternion_toImplementation_ref : Ref (Quaternion T) (Eigen.Quaternion T) :=
  {| load := @Quaternion_toImplementation T; store := fun v _ => MkQuaternion v |}.

(** The const accessors. *)
Definition Quaternion_w (this : Quaternion T) : T := Eigen.w (Quaternion_toImplementation this).
Definition Quaternion_x (this : Quaternion T) : T := Eigen.x (Quaternion_toImplementation this).
Definition Quaternion_y (this : Quaternion T) : T := Eigen.y (Quaternion_toImplementation this).
Definition Quaternion_z (this : Quaternion T) : T := Eigen.z (Quaternion_toImplementation this).

(** The non-const accessors, [PrimType_& w()] and the like. *)
Definition Quaternion_w_ref : Ref (Quaternion T) T :=
  sub_ref Quaternion_toImplementation_ref Eigen.w_ref.
Definition Quaternion_x_ref : Ref (Quaternion T) T :=
  sub_ref Quaternion_toImplementation_ref Eigen.x_ref.
Definition Quaternion_y_ref : Ref (Quaternion T) T :=
  sub_ref Quaternion_toImplementation_ref Eigen.y_ref.
Definition Quaternion_z_ref : Ref (Quaternion T) T :=
  sub_ref Quaternion_toImplementation_ref Eigen.z_ref.

Definition Quaternion_getReal (this : Quaternion T) : T :=
  Eigen.w (Quaternion_toImplementation this).

Definition Quaternion_getImaginary (this : Quaternion T) : Vector3 T :=
  MkVector3 (Eigen.x (Quaternion_toImplementation this))
            (Eigen.y (Quaternion_toImplementation this))
            (Eigen.z (Quaternion_toImplementation this)).

(** [vector4 << w, x, y, z] fills the coefficients 0 to 3 in this order. *)
Definition Quaternion_getVector4 (this : Quaternion T) : Vector4 T :=
  MkVector4 (Eigen.w (Quaternion_toImplementation this))
            (Eigen.x (Quaternion_toImplementation this))
            (Eigen.y (Quaternion_toImplementation this))
            (Eigen.z (Quaternion_toImplementation this)).

(** [operator=(const Quaternion<PrimType_>&)] *)
Definition Quaternion_assign (this other : Quaternion T)
  : Quaternion T * Ref (Quaternion T) (Quaternion T) :=
  let this := store Quaternion_w_ref (Quaternion_w other) this in
  let this := store Quaternion_x_ref (Quaternion_x other) this in
  let this := store Quaternion_y_ref (Quaternion_y other) this in
  let this := store Quaternion_z_ref (Quaternion_z other) this in
  return_this this.

Definition Quaternion_inverted (this : Quaternion T) : Quaternion T :=
  Quaternion_ctor_Base (Eigen.inverse (Quaternion_toImplementation this)).

Definition Quaternion_invert (this : Quaternion T)
  : Quaternion T * Ref (Quaternion T) (Quaternion T) :=
  let this :=
    fst (Quaternion_assign this
           (Quaternion_ctor_Base (Eigen.inverse (Quaternion_toImplementation this)))) in
  return_this this.

Definition Quaternion_conjugated (this : Quaternion T) : Quaternion T :=
  Quaternion_ctor_Base (Eigen.conjugate (Quaternion_toImplementation this)).

Definition Quaternion_conjugate (this : Quaternion T)
  : Quaternion T * Ref (Quaternion T) (Quaternion T) :=
  let this :=
    fst (Quaternion_assign this
           (Quaternion_ctor_Base (Eigen.conjugate (Quaternion_toImplementation this)))) in
  return_this this.

Definition Quaternion_norm (this : Quaternion T) : T :=
  Eigen.norm (Quaternion_toImplementation this).

Definition Quaternion_normalized (this : Quaternion T) : Quaternion T :=
  Quaternion_ctor_Base (Eigen.normalized (Quaternion_toImplementation this)).

Definition Quaternion_normalize (this : Quaternion T)
  : Quaternion T * Ref (Quaternion T) (Quaternion T) :=
  return_this
    (store Quaternion_toImplementation_ref
       (Eigen.normalize (Quaternion_toImplementation this)) this).

(** Modelled from the spec: [operator*], which [Quaternion] takes from
    [QuaternionBase] (kinder/quaternions/QuaternionBase.hpp, not part of
    the sources at hand).  It is the product of the Hamiltonian
    convention, i*i = j*j = k*k = ijk = -1, on the wrapped values. *)
Definition Quaternion_mult (a b : Quaternion T) : Quaternion T :=
  Quaternion_ctor_Base
    (Eigen.mul (Quaternion_toImplementation a) (Quaternion_toImplementation b)).
End Quaternion_members.

Section UnitQuaternion_members.
Context {T : Type} `{Scalar T}.
Local Open Scope scalar_scope.
Local Open Scope string_scope.

(** Modelled from the spec: the macro [KINDER_ASSERT_SCALAR_NEAR_DBG] of
    kinder/common/assert_macros_eigen.hpp, which is not part of the
    sources at hand.  In a debug build it compares [A] with [B] and throws
    when [|A - B| > tolerance]; in a release build it expands to nothing. *)
Definition KINDER_ASSERT_SCALAR_NEAR_DBG
    (b : build) (A B tolerance : T) (message : string) : run T unit :=
  match b with
  | DBG =>
      Run 1 (if sabs (A - B) >? tolerance
             then Raise (InvariantViolation A B tolerance message)
             else Ok tt)
  | NDEBUG => ret tt
  end.

Definition UnitQuaternion_norm (this : UnitQuaternion T) : T :=
  Quaternion_norm (unitQuternion_ this).

(** The default constructor: no assertion in its body. *)
Definition UnitQuaternion_ctor : run T (UnitQuaternion T) :=
  ret (MkUnitQuaternion (Quaternion_ctor_Base Eigen.Identity)).

Definition UnitQuaternion_ctor_wxyz (b : build) (w x y z : T)
  : run T (UnitQuaternion T) :=
  let this := MkUnitQuaternion (Quaternion_ctor_wxyz w x y z) in
  KINDER_ASSERT_SCALAR_NEAR_DBG b (UnitQuaternion_norm this) sone s1e_4
    "Input quaternion has not unit length." ;;
  ret this.

Definition UnitQuaternion_ctor_w_imag (b : build) (w : T) (imag : Vector3 T)
  : run T (UnitQuaternion T) :=
  let this := MkUnitQuaternion (Quaternion_ctor_w_imag w imag) in
  KINDER_ASSERT_SCALAR_NEAR_DBG b (UnitQuaternion_norm this) sone s1e_4
    "Input quaternion has not unit length." ;;
  ret this.

Definition UnitQuaternion_ctor_Vector4 (b : build) (vector4 : Vector4 T)
  : run T (UnitQuaternion T) :=
  let this :=
    MkUnitQuaternion
      (Quaternion_ctor_wxyz (v4_0 vector4) (v4_1 vector4) (v4_2 vector4) (v4_3 vector4)) in
  KINDER_ASSERT_SCALAR_NEAR_DBG b (UnitQuaternion_norm this) sone s1e_4
    "Input quaternion has not unit length." ;;
  ret this.

Definition UnitQuaternion_ctor_Quaternion (b : build) (other : Quaternion T)
  : run T (UnitQuaternion T) :=
  let this := MkUnitQuaternion (Quaternion_ctor_Base (Quaternion_toImplementation other)) in
  KINDER_ASSERT_SCALAR_NEAR_DBG b (UnitQuaternion_norm this) sone s1e_4
    "Input quaternion has not unit length." ;;
  ret this.

Definition UnitQuaternion_ctor_Implementation (b : build) (other : Eigen.Quaternion T)
  : run T (UnitQuaternion T) :=
  let this := MkUnitQuaternion (Quaternion_ctor_Base other) in
  KINDER_ASSERT_SCALAR_NEAR_DBG b (UnitQuaternion_norm this) sone s1e_4
    "Input quaternion has not unit length." ;;
  ret this.

(** The member [unitQuternion_] by reference. *)
Definition unitQuternion_ref : Ref (UnitQuaternion T) (Quaternion T) :=
  {| load := @unitQuternion_ T; store := fun v _ => MkUnitQuaternion v |}.

(** The const accessors. *)
Definition UnitQuaternion_w (this : UnitQuaternion T) : T := Quaternion_w (unitQuternion_ this).
Definition UnitQuaternion_x (this : UnitQuaternion T) : T := Quaternion_x (unitQuternion_ this).
Definition UnitQuaternion_y (this : UnitQuaternion T) : T := Quaternion_y (unitQuternion_ this).
Definition UnitQuaternion_z (this : UnitQuaternion T) : T := Quaternion_z (unitQuternion_ this).

(** The non-const accessors: [return unitQuternion_.w();] and the like,
    with no assertion. *)
Definition UnitQuaternion_w_ref : Ref (UnitQuaternion T) T :=
  sub_ref unitQuternion_ref Quaternion_w_ref.
Definition UnitQuaternion_x_ref : Ref (UnitQuaternion T) T :=
  sub_ref unitQuternion_ref Quaternion_x_ref.
Definition UnitQuaternion_y_ref : Ref (UnitQuaternion T) T :=
  sub_ref unitQuternion_ref Quaternion_y_ref.
Definition UnitQuaternion_z_ref : Ref (UnitQuaternion T) T :=
  sub_ref unitQuternion_ref Quaternion_z_ref.

Definition UnitQuaternion_getReal (this : UnitQuaternion T) : T :=
  Quaternion_w (unitQuternion_ this).

Definition UnitQuaternion_getImaginary (this : UnitQuaternion T) : Vector3 T :=
  MkVector3 (Quaternion_x (unitQuternion_ this))
            (Quaternion_y (unitQuternion_ this))
            (Quaternion_z (unitQuternion_ this)).

(** [operator=(const UnitQuaternion<PrimType_>&)] *)
Definition UnitQuaternion_assign (this other : UnitQuaternion T)
  : UnitQuaternion T * run T (Ref (UnitQuaternion T) (UnitQuaternion T)) :=
  let this := store UnitQuaternion_w_ref (UnitQuaternion_w other) this in
  let this := store UnitQuaternion_x_ref (UnitQuaternion_x other) this in
  let this := store UnitQuaternion_y_ref (UnitQuaternion_y other) this in
  let this := store UnitQuaternion_z_ref (UnitQuaternion_z other) this in
  (this, ret this_ref).

(** [conjugated() const]: builds its result with the explicit constructor
    from a [Quaternion]. *)
Definition UnitQuaternion_conjugated (b : build) (this : UnitQuaternion T)
  : run T (UnitQuaternion T) :=
  UnitQuaternion_ctor_Quaternion b (Quaternion_conjugated (unitQuternion_ this)).

(** [conjugate()]: conjugates the member in place. *)
Definition UnitQuaternion_conjugate (this : UnitQuaternion T)
  : UnitQuaternion T * run T (Ref (UnitQuaternion T) (UnitQuaternion T)) :=
  let this :=
    store unitQuternion_ref (fst (Quaternion_conjugate (unitQuternion_ this))) this in
  (this, ret this_ref).

Definition UnitQuaternion_toImplementation (this : UnitQuaternion T) : Eigen.Quaternion T :=
  Quaternion_toImplementation (unitQuternion_ this).

(** [Quaternion::operator=(const UnitQuaternion<PrimType_>&)] *)
Definition Quaternion_assign_UnitQuaternion (this : Quaternion T) (other : UnitQuaternion T)
  : Quaternion T * Ref (Quaternion T) (Quaternion T) :=
  let this :=
    fst (Quaternion_assign this
           (Quaternion_ctor_Base (UnitQuaternion_toImplementation other))) in
  return_this this.

(** [Quaternion::toUnitQuaternion() const] *)
Definition Quaternion_toUnitQuaternion (b : build) (this : Quaternion T)
  : run T (UnitQuaternion T) :=
  UnitQuaternion_ctor_Implementation b (Eigen.normalized (Quaternion_toImplementation this)).
End UnitQuaternion_members.

(** ** Conversions between scalar types: the templates [operator()] *)

Section Cross_scalar.
Context {PrimType_In PrimType_ : Type}.
Context {Scalar_In : Scalar PrimType_In} {Scalar_ : Scalar PrimType_}.
(** [static_cast<PrimType_>] on a value of type [PrimType_In]. *)
Variable static_cast : PrimType_In -> PrimType_.
Local Open Scope string_scope.

Definition Quaternion_call_Quaternion
    (this : Quaternion PrimType_) (other : Quaternion PrimType_In)
  : Quaternion PrimType_ * Ref (Quaternion PrimType_) (Quaternion PrimType_) :=
  let this := store Quaternion_w_ref (static_cast (Quaternion_w other)) this in
  let this := store Quaternion_x_ref (static_cast (Quaternion_x other)) this in
  let this := store Quaternion_y_ref (static_cast (Quaternion_y other)) this in
  let this := store Quaternion_z_ref (static_cast (Quaternion_z other)) this in
  return_this this.

Definition Quaternion_call_UnitQuaternion
    (this : Quaternion PrimType_) (other : UnitQuaternion PrimType_In)
  : Quaternion PrimType_ * Ref (Quaternion PrimType_) (Quaternion PrimType_) :=
  let this := store Quaternion_w_ref (static_cast (UnitQuaternion_w other)) this in
  let this := store Quaternion_x_ref (static_cast (UnitQuaternion_x other)) this in
  let this := store Quaternion_y_ref (static_cast (UnitQuaternion_y other)) this in
  let this := store Quaternion_z_ref (static_cast (UnitQuaternion_z other)) this in
  return_this this.

Definition UnitQuaternion_call_UnitQuaternion
    (this : UnitQuaternion PrimType_) (other : UnitQuaternion PrimType_In)
  : UnitQuaternion PrimType_
    * run PrimType_ (Ref (UnitQuaternion PrimType_) (UnitQuaternion PrimType_)) :=
  let this := store UnitQuaternion_w_ref (static_cast (UnitQuaternion_w other)) this in
  let this := store UnitQuaternion_x_ref (static_cast (UnitQuaternion_x other)) this in
  let this := store UnitQuaternion_y_ref (static_cast (UnitQuaternion_y other)) this in
  let this := store UnitQuaternion_z_ref (static_cast (UnitQuaternion_z other)) this in
  (this, ret this_ref).

(** The coefficients are written first and checked afterwards: when the
    check throws, [this] already holds the converted input. *)
Definition UnitQuaternion_call_Quaternion
    (b : build) (this : UnitQuaternion PrimType_) (other : Quaternion PrimType_In)
  : UnitQuaternion PrimType_
    * run PrimType_ (Ref (UnitQuaternion PrimType_) (UnitQuaternion PrimType_)) :=
  let this := store UnitQuaternion_w_ref (static_cast (Quaternion_w other)) this in
  let this := store UnitQuaternion_x_ref (static_cast (Quaternion_x other)) this in
  let this := store UnitQuaternion_y_ref (static_cast (Quaternion_y other)) this in
  let this := store UnitQuaternion_z_ref (static_cast (Quaternion_z other)) this in
  (this,
   KINDER_ASSERT_SCALAR_NEAR_DBG b (UnitQuaternion_norm this) sone s1e_4
     "Input quaternion has not unit length." ;;
   ret this_ref).
End Cross_scalar.

(** ** The unit-norm invariant *)

(** [|n - 1| > 1e-4]: the value [n] of a norm is out of the tolerance. *)
Definition out_of_tolerance {T : Type} `{Scalar T} (n : T) : bool :=
  (sabs (n - sone) >? s1e_4)%s.

(** ** Two scalar types *)

(** The exact real numbers. *)
#[export] Instance Scalar_R : Scalar R := {|
  szero := 0%R;
  sone := 1%R;
  s1e_4 := (1 / 10000)%R;
  sopp := Ropp;
  sadd := Rplus;
  ssub := Rminus;
  smul := Rmult;
  sdiv := Rdiv;
  ssqrt := R_sqrt.sqrt;
  sabs := Rabs;
  sgtb := fun a b => if Rgt_dec a b then true else false
|}.

(** [double]: IEEE 754 binary64, round to nearest.  The literal is the
    binary64 value nearest to 1e-4. *)
#[export] Instance Scalar_double : Scalar float := {|
  szero := 0%float;
  sone := 1%float;
  s1e_4 := 0x1.a36e2eb1c432dp-14%float;
  sopp := PrimFloat.opp;
  sadd := PrimFloat.add;
  ssub := PrimFloat.sub;
  smul := PrimFloat.mul;
  sdiv := PrimFloat.div;
  ssqrt := PrimFloat.sqrt;
  sabs := PrimFloat.abs;
  sgtb := fun a b => PrimFloat.ltb b a
|}.

(** The default-constructed unit quaternion, and the object obtained from it
    by writing 2 through the non-const accessor [w()]. *)
Definition identity_unit (T : Type) `{Scalar T} : UnitQuaternion T :=
  MkUnitQuaternion (Quaternion_ctor_Base Eigen.Identity).
Arguments identity_unit T {_}.

Definition doubled_w_R : UnitQuaternion R :=
  store UnitQuaternion_w_ref 2%R (identity_unit R).

Definition doubled_w_double : UnitQuaternion float :=
  store UnitQuaternion_w_ref 2%float (identity_unit float).

(** * Properties *)

(** ** The instrumented results *)

Section Assertion.
Context {T : Type} `{Scalar T}.

(** What the assertion, followed by [ret], amounts to in a debug build. *)
Lemma checked_DBG {A : Type} (n : T) (msg : string) (a : A) :
  KINDER_ASSERT_SCALAR_NEAR_DBG DBG n sone s1e_4 msg ;; ret a
  = Run 1 (if out_of_tolerance n
           then Raise (InvariantViolation n sone s1e_4 msg)
           else Ok a).
Proof.
  unfold KINDER_ASSERT_SCALAR_NEAR_DBG, out_of_tolerance, bind; simpl.
  now destruct (sgtb (sabs (ssub n sone)) s1e_4).
Qed.

Lemma checked_NDEBUG {A : Type} (n : T) (msg : string) (a : A) :
  KINDER_ASSERT_SCALAR_NEAR_DBG NDEBUG n sone s1e_4 msg ;; ret a = ret a.
Proof. reflexivity. Qed.

Lemma raises_checked_DBG {A : Type} (n : T) (msg : string) (a : A) :
  raises (KINDER_ASSERT_SCALAR_NEAR_DBG DBG n sone s1e_4 msg ;; ret a)
  = out_of_tolerance n.
Proof. rewrite checked_DBG; unfold raises; simpl. now destruct (out_of_tolerance n). Qed.

(** A check in range lets the value through, whatever the build. *)
Lemma checked_in_tolerance {A : Type} (b : build) (n : T) (msg : string) (a : A) :
  out_of_tolerance n = false ->
  out (KINDER_ASSERT_SCALAR_NEAR_DBG b n sone s1e_4 msg ;; ret a) = Ok a.
Proof.
  intros Hn; destruct b.
  - now rewrite checked_DBG, Hn.
  - reflexivity.
Qed.
End Assertion.

(** ** References into a quaternion *)

Section Accessors.
Context {T : Type} `{Scalar T}.

(** Writing the four coefficients one after the other rebuilds the
    quaternion from them. *)
Lemma Quaternion_store_wxyz (this : Quaternion T) (w x y z : T) :
  store Quaternion_z_ref z
    (store Quaternion_y_ref y
       (store Quaternion_x_ref x (store Quaternion_w_ref w this)))
  = Quaternion_ctor_wxyz w x y z.
Proof. reflexivity. Qed.


Lemma Quaternion_eta (q : Quaternion T) :
  Quaternion_ctor_wxyz (Quaternion_w q) (Quaternion_x q) (Quaternion_y q) (Quaternion_z q) = q.
Proof. now destruct q as [[x y z w]]. Qed.

Lemma Quaternion_assign_copies (this other : Quaternion T) :
  Quaternion_assign this other = return_this other.
Proof.
  unfold Quaternion_assign. rewrite Quaternion_store_wxyz. now rewrite Quaternion_eta.
Qed.
End Accessors.

(** ** Exact real scalars *)

Section Real_scalars.
Local Open Scope R_scope.

Lemma sgtb_R (a b : R) : sgtb a b = true <-> a > b.
Proof. simpl. destruct (Rgt_dec a b); split; intros; try assumption; try reflexivity; try discriminate; contradiction. Qed.

Lemma out_of_tolerance_R (n : R) :
  out_of_tolerance n = true <-> Rabs (n - 1) > 1 / 10000.
Proof. unfold out_of_tolerance. now rewrite sgtb_R. Qed.

Lemma out_of_tolerance_R_false (n : R) :
  out_of_tolerance n = false <-> Rabs (n - 1) <= 1 / 10000.
Proof.
  destruct (out_of_tolerance n) eqn:E.
  - apply out_of_tolerance_R in E. split; [discriminate | lra].
  - split; [intros _ | reflexivity].
    destruct (Rle_dec (Rabs (n - 1)) (1 / 10000)) as [Hle|Hgt]; [assumption|].
    assert (Hn : out_of_tolerance n = true) by (apply out_of_tolerance_R; lra).
    congruence.
Qed.

Lemma in_tolerance_one : out_of_tolerance 1 = false.
Proof.
  apply out_of_tolerance_R_false.
  replace (1 - 1) with 0 by ring. rewrite Rabs_R0. lra.
Qed.

Lemma out_of_tolerance_two : out_of_tolerance 2 = true.
Proof.
  apply out_of_tolerance_R.
  replace (2 - 1) with 1 by ring. rewrite Rabs_R1. lra.
Qed.

Lemma squaredNorm_R (q : Eigen.Quaternion R) :
  Eigen.squaredNorm q
  = Eigen.x q * Eigen.x q + Eigen.y q * Eigen.y q
    + Eigen.z q * Eigen.z q + Eigen.w q * Eigen.w q.
Proof. reflexivity. Qed.

Lemma squaredNorm_nonneg (q : Eigen.Quaternion R) : 0 <= Eigen.squaredNorm q.
Proof. rewrite squaredNorm_R. nra. Qed.

Lemma norm_R (q : Eigen.Quaternion R) : Eigen.norm q = sqrt (Eigen.squaredNorm q).
Proof. reflexivity. Qed.

Lemma norm_sqr (q : Eigen.Quaternion R) :
  Eigen.norm q * Eigen.norm q = Eigen.squaredNorm q.
Proof. rewrite norm_R. apply sqrt_sqrt, squaredNorm_nonneg. Qed.

(** A nonzero norm is the norm of a quaternion with positive squared norm. *)
Lemma norm_nonzero (q : Eigen.Quaternion R) :
  Eigen.norm q <> 0 -> 0 < Eigen.squaredNorm q.
Proof.
  intros Hn. destruct (squaredNorm_nonneg q) as [Hlt|Heq]; [assumption|].
  exfalso; apply Hn. rewrite norm_R, <- Heq. apply sqrt_0.
Qed.

(** The norm of a quaternion with a single nonzero coefficient, [w]. *)
Lemma norm_real_axis (a : R) :
  0 <= a -> Eigen.norm (Eigen.Quaternion_wxyz a 0 0 0) = a.
Proof.
  intros Ha. rewrite norm_R, squaredNorm_R; simpl.
  replace (0 * 0 + 0 * 0 + 0 * 0 + a * a) with (a * a) by ring.
  now apply sqrt_square.
Qed.

Lemma Quaternion_norm_real_axis (a : R) :
  0 <= a -> Quaternion_norm (Quaternion_ctor_wxyz a 0 0 0) = a.
Proof. exact (norm_real_axis (a := a)). Qed.

Lemma norm_conjugate (q : Eigen.Quaternion R) :
  Eigen.norm (Eigen.conjugate q) = Eigen.norm q.
Proof.
  rewrite !norm_R. f_equal. rewrite !squaredNorm_R; simpl. ring.
Qed.

Lemma norm_normalized (q : Eigen.Quaternion R) :
  Eigen.norm q <> 0 -> Eigen.norm (Eigen.normalized q) = 1.
Proof.
  intros Hn. pose proof (norm_sqr q) as Hs. unfold Eigen.normalized.
  remember (Eigen.norm q) as n eqn:En. clear En.
  rewrite norm_R, <- sqrt_1. f_equal.
  rewrite squaredNorm_R in *. destruct q as [x y z w]; simpl in *.
  transitivity ((x * x + y * y + z * z + w * w) / (n * n)).
  - field; assumption.
  - rewrite <- Hs. field; assumption.
Qed.

(** For a quaternion that has one, Eigen's [inverse] is the conjugate
    divided by the squared norm. *)
Lemma inverse_nonzero (q : Eigen.Quaternion R) :
  Eigen.norm q <> 0 ->
  Eigen.inverse q = Eigen.coeffs_div (Eigen.conjugate q) (Eigen.squaredNorm q).
Proof.
  intros Hn. apply norm_nonzero in Hn. unfold Eigen.inverse.
  assert (Hg : sgtb (Eigen.squaredNorm q) szero = true) by (apply sgtb_R; exact Hn).
  now rewrite Hg.
Qed.
End Real_scalars.

(** ** Validation at construction and conversion *)

Section Construction.
Context {T : Type} `{Scalar T}.

(** The outcome of the four-scalar constructor in a debug build. *)
Lemma UnitQuaternion_ctor_wxyz_DBG (w x y z : T) :
  UnitQuaternion_ctor_wxyz DBG w x y z
  = Run 1 (if out_of_tolerance (Quaternion_norm (Quaternion_ctor_wxyz w x y z))
           then Raise (InvariantViolation
                         (Quaternion_norm (Quaternion_ctor_wxyz w x y z)) sone s1e_4
                         "Input quaternion has not unit length.")
           else Ok (MkUnitQuaternion (Quaternion_ctor_wxyz w x y z))).
Proof. unfold UnitQuaternion_ctor_wxyz. apply checked_DBG. Qed.

(** The outcome of the constructor from a [Quaternion] in a debug build. *)
Lemma UnitQuaternion_ctor_Quaternion_DBG (other : Quaternion T) :
  UnitQuaternion_ctor_Quaternion DBG other
  = Run 1 (if out_of_tolerance (Quaternion_norm other)
           then Raise (InvariantViolation (Quaternion_norm other) sone s1e_4
                         "Input quaternion has not unit length.")
           else Ok (MkUnitQuaternion other)).
Proof.
  unfold UnitQuaternion_ctor_Quaternion. rewrite checked_DBG.
  now destruct other.
Qed.

(** The two constructors that wrap a value, from a [Quaternion] and from
    the native representation, build the same object. *)
Lemma UnitQuaternion_ctor_Implementation_Quaternion (b : build) (q : Eigen.Quaternion T) :
  UnitQuaternion_ctor_Implementation b q
  = UnitQuaternion_ctor_Quaternion b (Quaternion_ctor_Base q).
Proof. reflexivity. Qed.

(** In a release build no path checks or throws. *)
Lemma UnitQuaternion_ctor_wxyz_NDEBUG (w x y z : T) :
  UnitQuaternion_ctor_wxyz NDEBUG w x y z
  = ret (MkUnitQuaternion (Quaternion_ctor_wxyz w x y z)).
Proof. reflexivity. Qed.
End Construction.


(** ** Normalize, then wrap *)




(** ** Conjugation of a unit quaternion *)

Section Conjugation.
Context {T : Type} `{Scalar T}.

(** The in-place [conjugate()] leaves the conjugate of the member in
    [this], executes no check and returns [*this]. *)
Lemma UnitQuaternion_conjugate_unchecked (this : UnitQuaternion T) :
  UnitQuaternion_conjugate this
  = (MkUnitQuaternion (Quaternion_conjugated (unitQuternion_ this)), ret this_ref).
Proof.
  unfold UnitQuaternion_conjugate, Quaternion_conjugate.
  now rewrite Quaternion_assign_copies.
Qed.

(** [conjugated()] goes through the checking constructor. *)
Lemma UnitQuaternion_conjugated_DBG (this : UnitQuaternion T) :
  UnitQuaternion_conjugated DBG this
  = Run 1 (if out_of_tolerance (Quaternion_norm (Quaternion_conjugated (unitQuternion_ this)))
           then Raise (InvariantViolation
                         (Quaternion_norm (Quaternion_conjugated (unitQuternion_ this)))
                         sone s1e_4 "Input quaternion has not unit length.")
           else Ok (MkUnitQuaternion (Quaternion_conjugated (unitQuternion_ this)))).
Proof. apply UnitQuaternion_ctor_Quaternion_DBG. Qed.
End Conjugation.

(** C3. [UnitQuaternion::conjugate()], in place, executes no unit-norm check
    and does not throw.  [UnitQuaternion::conjugated()] does not skip it: in
    a debug build it executes one check for every unit quaternion, and on
    the object obtained from the identity by writing 2 through [w()] it
    throws, over the real numbers and in binary64 arithmetic. *)
Theorem UnitQuaternion_conjugated_revalidates :
  (forall (T : Type) (S : Scalar T) (u : UnitQuaternion T),
      checks (snd (UnitQuaternion_conjugate u)) = 0
      /\ raises (snd (UnitQuaternion_conjugate u)) = false)
  /\ (forall (T : Type) (S : Scalar T) (u : UnitQuaternion T),
      checks (UnitQuaternion_conjugated DBG u) = 1)
  /\ raises (UnitQuaternion_conjugated DBG doubled_w_R) = true
  /\ raises (UnitQuaternion_conjugated DBG doubled_w_double) = true.
Proof.
  split; [|split; [|split]].
  - intros T S u. now rewrite UnitQuaternion_conjugate_unchecked.
  - intros T S u. now rewrite UnitQuaternion_conjugated_DBG.
  - rewrite UnitQuaternion_conjugated_DBG. unfold raises; cbn [out].
    assert (Hn : Quaternion_norm (Quaternion_conjugated (unitQuternion_ doubled_w_R)) = 2%R).
    { unfold Quaternion_norm, Quaternion_conjugated, Quaternion_ctor_Base;
        cbn [Quaternion_toImplementation].
      rewrite norm_conjugate. apply (norm_real_axis (a := 2%R)). lra. }
    now rewrite Hn, out_of_tolerance_two.
  - vm_compute. reflexivity.
Qed.

(** ** Writing through the non-const accessors *)

(** C4. Writing a value [v] through [w()], [x()], [y()] or [z()] of a unit
    quaternion stores [v] in that coefficient and leaves the other three as
    they were; the write is a store and nothing else, so that it executes no
    check and cannot throw, whatever the norm of the result.  Writing 2
    through [w()] of the identity gives the coefficients (2,0,0,0), out of
    tolerance, which the constructor refuses in a debug build. *)
Theorem UnitQuaternion_component_write_unchecked :
  (forall (T : Type) (S : Scalar T) (u : UnitQuaternion T) (v : T),
      store UnitQuaternion_w_ref v u
      = MkUnitQuaternion
          (Quaternion_ctor_wxyz v (UnitQuaternion_x u) (UnitQuaternion_y u) (UnitQuaternion_z u))
      /\ store UnitQuaternion_x_ref v u
         = MkUnitQuaternion
             (Quaternion_ctor_wxyz (UnitQuaternion_w u) v (UnitQuaternion_y u) (UnitQuaternion_z u))
      /\ store UnitQuaternion_y_ref v u
         = MkUnitQuaternion
             (Quaternion_ctor_wxyz (UnitQuaternion_w u) (UnitQuaternion_x u) v (UnitQuaternion_z u))
      /\ store UnitQuaternion_z_ref v u
         = MkUnitQuaternion
             (Quaternion_ctor_wxyz (UnitQuaternion_w u) (UnitQuaternion_x u) (UnitQuaternion_y u) v)
      /\ load UnitQuaternion_w_ref (store UnitQuaternion_w_ref v u) = v
      /\ load UnitQuaternion_x_ref (store UnitQuaternion_x_ref v u) = v
      /\ load UnitQuaternion_y_ref (store UnitQuaternion_y_ref v u) = v
      /\ load UnitQuaternion_z_ref (store UnitQuaternion_z_ref v u) = v)
  /\ (doubled_w_R = MkUnitQuaternion (Quaternion_ctor_wxyz 2 0 0 0)
      /\ out_of_tolerance (UnitQuaternion_norm doubled_w_R) = true
      /\ raises (UnitQuaternion_ctor_wxyz DBG 2 0 0 0) = true)%R
  /\ (doubled_w_double = MkUnitQuaternion (Quaternion_ctor_wxyz 2 0 0 0)
      /\ out_of_tolerance (UnitQuaternion_norm doubled_w_double) = true
      /\ raises (UnitQuaternion_ctor_wxyz DBG 2 0 0 0) = true)%float.
Proof.
  split; [|split].
  - intros T S u v. repeat split; reflexivity.
  - split; [reflexivity|]. split.
    + change (out_of_tolerance (Quaternion_norm (Quaternion_ctor_wxyz 2 0 0 0)%R) = true).
      rewrite Quaternion_norm_real_axis by lra. apply out_of_tolerance_two.
    + rewrite UnitQuaternion_ctor_wxyz_DBG. unfold raises; cbn [out].
      change (@szero R Scalar_R) with 0%R.
      rewrite Quaternion_norm_real_axis by lra. now rewrite out_of_tolerance_two.
  - repeat split; vm_compute; reflexivity.
Qed.

(** ** The inverse *)

(** The inverse in exact real arithmetic: every quaternion of nonzero norm
    has a squared norm greater than 0, which is the square of its norm, and
    [inverted()] is its inverse for the product, on both sides. *)
Lemma Quaternion_inverted_exact (q : Quaternion R) :
  Quaternion_norm q <> 0%R ->
  (Eigen.squaredNorm (Quaternion_toImplementation q) >? szero)%s = true
  /\ (Eigen.squaredNorm (Quaternion_toImplementation q)
      = Quaternion_norm q * Quaternion_norm q
      /\ Quaternion_mult q (Quaternion_inverted q) = Quaternion_ctor_wxyz 1 0 0 0
      /\ Quaternion_mult (Quaternion_inverted q) q = Quaternion_ctor_wxyz 1 0 0 0)%R.
Proof.
  intros Hn.
  pose proof (@norm_nonzero _ Hn) as Hpos.
  pose proof (@inverse_nonzero _ Hn) as Hinv.
  pose proof (norm_sqr (Quaternion_toImplementation q)) as Hsq.
  split; [apply sgtb_R; exact Hpos|].
  split; [symmetry; exact Hsq|].
  unfold Quaternion_inverted, Quaternion_mult, Quaternion_ctor_Base, Quaternion_ctor_wxyz.
  rewrite Hinv. clear Hinv Hsq Hn.
  destruct q as [[x y z w]]. rewrite squaredNorm_R in *.
  cbn [Quaternion_toImplementation Eigen.x Eigen.y Eigen.z Eigen.w] in *.
  assert (Hne : (x * x + y * y + z * z + w * w)%R <> 0%R) by lra.
  unfold Eigen.mul, Eigen.coeffs_div, Eigen.conjugate, Eigen.Quaternion_wxyz; simpl.
  repeat split; f_equal; f_equal; field; exact Hne.
Qed.




(** ** Assignment and conversion between unit quaternions *)

(** C6. The assignment [operator=] from a [UnitQuaternion<PrimType_>] and
    the converting [operator()] from a [UnitQuaternion<PrimType_In>] execute
    no unit-norm check and do not throw; afterwards the four coefficients of
    the target are those of the source, through [static_cast] in the
    conversion; both return [*this]. *)
Theorem UnitQuaternion_copy_unchecked :
  (forall (T : Type) (S : Scalar T) (this other : UnitQuaternion T),
      checks (snd (UnitQuaternion_assign this other)) = 0
      /\ out (snd (UnitQuaternion_assign this other)) = Ok this_ref
      /\ UnitQuaternion_w (fst (UnitQuaternion_assign this other)) = UnitQuaternion_w other
      /\ UnitQuaternion_x (fst (UnitQuaternion_assign this other)) = UnitQuaternion_x other
      /\ UnitQuaternion_y (fst (UnitQuaternion_assign this other)) = UnitQuaternion_y other
      /\ UnitQuaternion_z (fst (UnitQuaternion_assign this other)) = UnitQuaternion_z other
      /\ fst (UnitQuaternion_assign this other) = other)
  /\ (forall (PrimType_In PrimType_ : Type) (S : Scalar PrimType_)
             (static_cast : PrimType_In -> PrimType_)
             (this : UnitQuaternion PrimType_) (other : UnitQuaternion PrimType_In),
         let r := UnitQuaternion_call_UnitQuaternion static_cast this other in
         checks (snd r) = 0
         /\ out (snd r) = Ok this_ref
         /\ UnitQuaternion_w (fst r) = static_cast (UnitQuaternion_w other)
         /\ UnitQuaternion_x (fst r) = static_cast (UnitQuaternion_x other)
         /\ UnitQuaternion_y (fst r) = static_cast (UnitQuaternion_y other)
         /\ UnitQuaternion_z (fst r) = static_cast (UnitQuaternion_z other)).
Proof.
  split.
  - intros T S this other. repeat split.
    now destruct other as [[[x y z w]]].
  - intros PrimType_In PrimType_ S static_cast this other r. repeat split.
Qed.

(** ** The order of the coefficients in a 4-vector *)

(** C7. The constructor from a 4-vector [v] reads w, x, y, z from [v(0)],
    [v(1)], [v(2)], [v(3)]; [getVector4()] returns the 4-vector (w, x, y, z);
    and [Quaternion(v).getVector4()] is [v]. *)
Theorem Vector4_order_wxyz :
  forall (T : Type) (S : Scalar T),
    (forall v : Vector4 T,
        Quaternion_w (Quaternion_ctor_Vector4 v) = v4_0 v
        /\ Quaternion_x (Quaternion_ctor_Vector4 v) = v4_1 v
        /\ Quaternion_y (Quaternion_ctor_Vector4 v) = v4_2 v
        /\ Quaternion_z (Quaternion_ctor_Vector4 v) = v4_3 v)
    /\ (forall q : Quaternion T,
        Quaternion_getVector4 q
        = MkVector4 (Quaternion_w q) (Quaternion_x q) (Quaternion_y q) (Quaternion_z q))
    /\ (forall v : Vector4 T, Quaternion_getVector4 (Quaternion_ctor_Vector4 v) = v).
Proof.
  intros T S. split; [|split].
  - intros v. repeat split.
  - intros q. reflexivity.
  - intros [a b c d]. reflexivity.
Qed.

(** ** The conjugate of a unit quaternion *)

(** Conjugating a unit quaternion whose norm is within the tolerance
    returns the conjugate, in either build. *)
Lemma UnitQuaternion_conjugated_in_tolerance (b : build) (u : UnitQuaternion R) :
  out_of_tolerance (UnitQuaternion_norm u) = false ->
  out (UnitQuaternion_conjugated b u)
  = Ok (MkUnitQuaternion (Quaternion_conjugated (unitQuternion_ u))).
Proof.
  intros Hu. destruct b; [|now destruct u as [[q]]].
  rewrite UnitQuaternion_conjugated_DBG; cbn [out].
  replace (Quaternion_norm (Quaternion_conjugated (unitQuternion_ u)))
    with (UnitQuaternion_norm u)
    by (symmetry; apply norm_conjugate).
  now rewrite Hu.
Qed.

(** C8. For every unit quaternion [q] = (w,x,y,z), its norm within the
    tolerance of 1, and in either build, [q.conjugated()] returns
    (w,-x,-y,-z), whose norm is the norm of [q]: it is 1 when the norm of [q]
    is 1.  In particular [UnitQuaternion(0,0,0,1).conjugated()] is (0,0,0,-1)
    with norm 1: over the real numbers, and in binary64 arithmetic with the
    coefficients compared by [==].  Scalars of the general statement are the
    real numbers. *)
Theorem UnitQuaternion_conjugated_negates_imaginary :
  (forall (b : build) (q : UnitQuaternion R),
      out_of_tolerance (UnitQuaternion_norm q) = false ->
      out (UnitQuaternion_conjugated b q)
      = Ok (MkUnitQuaternion
              (Quaternion_ctor_wxyz (UnitQuaternion_w q) (- UnitQuaternion_x q)
                 (- UnitQuaternion_y q) (- UnitQuaternion_z q)))
      /\ UnitQuaternion_norm
           (MkUnitQuaternion
              (Quaternion_ctor_wxyz (UnitQuaternion_w q) (- UnitQuaternion_x q)
                 (- UnitQuaternion_y q) (- UnitQuaternion_z q)))
         = UnitQuaternion_norm q
      /\ (UnitQuaternion_norm q = 1 ->
          UnitQuaternion_norm
            (MkUnitQuaternion
               (Quaternion_ctor_wxyz (UnitQuaternion_w q) (- UnitQuaternion_x q)
                  (- UnitQuaternion_y q) (- UnitQuaternion_z q))) = 1))%R
  /\ (forall b : build,
         out (bind (UnitQuaternion_ctor_wxyz b 0 0 0 1) (UnitQuaternion_conjugated b))
         = Ok (MkUnitQuaternion (Quaternion_ctor_wxyz 0 0 0 (-1)))
         /\ UnitQuaternion_norm (MkUnitQuaternion (Quaternion_ctor_wxyz 0 0 0 (-1))) = 1)%R
  /\ (forall b : build,
         exists c : UnitQuaternion float,
           out (bind (UnitQuaternion_ctor_wxyz b 0 0 0 1) (UnitQuaternion_conjugated b)) = Ok c
           /\ PrimFloat.eqb (UnitQuaternion_w c) 0 = true
           /\ PrimFloat.eqb (UnitQuaternion_x c) 0 = true
           /\ PrimFloat.eqb (UnitQuaternion_y c) 0 = true
           /\ PrimFloat.eqb (UnitQuaternion_z c) (-1) = true
           /\ UnitQuaternion_norm c = 1)%float.
Proof.
  assert (Preserved : forall q : UnitQuaternion R,
             UnitQuaternion_norm
               (MkUnitQuaternion
                  (Quaternion_ctor_wxyz (UnitQuaternion_w q) (- UnitQuaternion_x q)
                     (- UnitQuaternion_y q) (- UnitQuaternion_z q))%R)
             = UnitQuaternion_norm q)
    by (intros q; apply (norm_conjugate (UnitQuaternion_toImplementation q))).
  assert (H1 : UnitQuaternion_norm (MkUnitQuaternion (Quaternion_ctor_wxyz 0 0 0 1)%R) = 1%R).
  { unfold UnitQuaternion_norm, Quaternion_norm, Quaternion_ctor_wxyz, Eigen.Quaternion_wxyz;
      cbn [unitQuternion_ Quaternion_toImplementation].
    rewrite norm_R, squaredNorm_R; cbn [Eigen.x Eigen.y Eigen.z Eigen.w].
    replace (0 * 0 + 0 * 0 + 1 * 1 + 0 * 0)%R with 1%R by ring. apply sqrt_1. }
  split; [|split].
  - intros b q Hq. split; [|split].
    + now rewrite UnitQuaternion_conjugated_in_tolerance.
    + apply Preserved.
    + intros Hn. now rewrite Preserved.
  - intros b.
    assert (Hc : (UnitQuaternion_ctor_wxyz b 0 0 0 1
                  = Run (checks (UnitQuaternion_ctor_wxyz b 0 0 0 1))
                        (Ok (MkUnitQuaternion (Quaternion_ctor_wxyz 0 0 0 1))))%R).
    { destruct b; [|reflexivity].
      rewrite UnitQuaternion_ctor_wxyz_DBG; cbn [checks].
      change (Quaternion_norm (Quaternion_ctor_wxyz 0 0 0 1)%R)
        with (UnitQuaternion_norm (MkUnitQuaternion (Quaternion_ctor_wxyz 0 0 0 1)%R)).
      now rewrite H1, in_tolerance_one. }
    assert (Heq : (MkUnitQuaternion (Quaternion_ctor_wxyz 0 (- 0) (- 0) (- 1)))%R
                  = (MkUnitQuaternion (Quaternion_ctor_wxyz 0 0 0 (- 1)))%R)
      by (now rewrite Ropp_0).
    split.
    + rewrite Hc. unfold bind; cbn [out].
      rewrite UnitQuaternion_conjugated_in_tolerance
        by (rewrite H1; apply in_tolerance_one).
      exact (f_equal Ok Heq).
    + rewrite <- Heq, <- H1.
      exact (Preserved (MkUnitQuaternion (Quaternion_ctor_wxyz 0 0 0 1)%R)).
  - intros b. destruct b; eexists; repeat split; vm_compute; reflexivity.
Qed.

Lemma UnitQuaternion_conjugated_negates_imaginary_witness :
  (out_of_tolerance (UnitQuaternion_norm (identity_unit R)) = false
   /\ out (UnitQuaternion_conjugated DBG (identity_unit R))
      = Ok (MkUnitQuaternion (Quaternion_ctor_wxyz 1 (- 0) (- 0) (- 0))))%R.
Proof.
  assert (H1 : out_of_tolerance (UnitQuaternion_norm (identity_unit R)) = false).
  { replace (UnitQuaternion_norm (identity_unit R)) with 1%R
      by (symmetry; apply (norm_real_axis (a := 1%R)); lra).
    apply in_tolerance_one. }
  split; [exact H1|].
  exact (proj1 (proj1 UnitQuaternion_conjugated_negates_imaginary DBG (identity_unit R) H1)).
Defined.

(** ** The default constructor *)

(** C9. The default constructor of [UnitQuaternion] returns the identity
    (1,0,0,0); it executes no unit-norm check and does not throw.  The norm
    of the identity is 1, over the real numbers and in binary64 arithmetic,
    so that it is within the tolerance. *)
Theorem UnitQuaternion_default_is_identity :
  (forall (T : Type) (S : Scalar T),
      UnitQuaternion_ctor (T := T)
      = ret (MkUnitQuaternion (Quaternion_ctor_wxyz sone szero szero szero))
      /\ checks (UnitQuaternion_ctor (T := T)) = 0
      /\ raises (UnitQuaternion_ctor (T := T)) = false
      /\ out (UnitQuaternion_ctor (T := T)) = Ok (identity_unit T)
      /\ UnitQuaternion_w (identity_unit T) = sone
      /\ UnitQuaternion_x (identity_unit T) = szero
      /\ UnitQuaternion_y (identity_unit T) = szero
      /\ UnitQuaternion_z (identity_unit T) = szero)
  /\ (UnitQuaternion_norm (identity_unit R) = 1%R
      /\ out_of_tolerance (UnitQuaternion_norm (identity_unit R)) = false)
  /\ (UnitQuaternion_norm (identity_unit float) = 1%float
      /\ out_of_tolerance (UnitQuaternion_norm (identity_unit float)) = false).
Proof.
  assert (H1 : UnitQuaternion_norm (identity_unit R) = 1%R)
    by (apply (norm_real_axis (a := 1%R)); lra).
  split; [|split].
  - intros T S. repeat split.
  - split; [exact H1|]. rewrite H1. apply in_tolerance_one.
  - split; vm_compute; reflexivity.
Qed.

(** * Further properties of the two classes *)

(** ** Parts of a quaternion and its constructors *)

(** X1. A quaternion is rebuilt from what its accessors return: from its
    four coefficients, from [getReal()] and [getImaginary()], from
    [getVector4()] and from [toImplementation()].  Conversely the
    constructor from a real part and a 3-vector is read back by [getReal()]
    and [getImaginary()]. *)
Theorem Quaternion_rebuilt_from_parts :
  forall T : Type,
    (forall q : Quaternion T,
        Quaternion_ctor_wxyz (Quaternion_w q) (Quaternion_x q) (Quaternion_y q) (Quaternion_z q)
        = q
        /\ Quaternion_ctor_w_imag (Quaternion_getReal q) (Quaternion_getImaginary q) = q
        /\ Quaternion_ctor_Vector4 (Quaternion_getVector4 q) = q
        /\ Quaternion_ctor_Base (Quaternion_toImplementation q) = q)
    /\ (forall (w : T) (imag : Vector3 T),
        Quaternion_getReal (Quaternion_ctor_w_imag w imag) = w
        /\ Quaternion_getImaginary (Quaternion_ctor_w_imag w imag) = imag).
Proof.
  intros T. split.
  - intros [[x y z w]]. repeat split.
  - intros w [a b c]. split; reflexivity.
Qed.

(** X2. The constructors agree: given the same four coefficients, as four
    scalars, as a scalar and a 3-vector, as a 4-vector, as a native
    quaternion or as a [Quaternion], the constructors of [Quaternion] build
    the same value and those of [UnitQuaternion] run the same computation,
    check included. *)
Theorem constructors_agree :
  forall (T : Type) (S : Scalar T) (b : build) (w x y z : T),
    (Quaternion_ctor_w_imag w (MkVector3 x y z) = Quaternion_ctor_wxyz w x y z
     /\ Quaternion_ctor_Vector4 (MkVector4 w x y z) = Quaternion_ctor_wxyz w x y z
     /\ Quaternion_ctor_Base (Eigen.Quaternion_wxyz w x y z) = Quaternion_ctor_wxyz w x y z)
    /\ (UnitQuaternion_ctor_w_imag b w (MkVector3 x y z) = UnitQuaternion_ctor_wxyz b w x y z
        /\ UnitQuaternion_ctor_Vector4 b (MkVector4 w x y z) = UnitQuaternion_ctor_wxyz b w x y z
        /\ UnitQuaternion_ctor_Implementation b (Eigen.Quaternion_wxyz w x y z)
           = UnitQuaternion_ctor_wxyz b w x y z
        /\ UnitQuaternion_ctor_Quaternion b (Quaternion_ctor_wxyz w x y z)
           = UnitQuaternion_ctor_wxyz b w x y z).
Proof. intros T S b w x y z. repeat split. Qed.

(** ** Conversions of a [Quaternion] between scalar types *)

(** X3. The converting [operator()] of [Quaternion] overwrites the whole
    target: its result is the [static_cast] of the four coefficients of the
    source, whatever the target held; converting from a [UnitQuaternion] is
    converting from the quaternion it holds; converting twice is converting
    once with the composed cast; and with the identity cast the conversion
    is the assignment [operator=]. *)
Theorem Quaternion_conversion_overwrites :
  (forall (A B : Type) (cast : A -> B) (this : Quaternion B) (other : Quaternion A),
      fst (Quaternion_call_Quaternion cast this other)
      = Quaternion_ctor_wxyz (cast (Quaternion_w other)) (cast (Quaternion_x other))
          (cast (Quaternion_y other)) (cast (Quaternion_z other)))
  /\ (forall (A B : Type) (cast : A -> B) (this : Quaternion B) (other : UnitQuaternion A),
      Quaternion_call_UnitQuaternion cast this other
      = Quaternion_call_Quaternion cast this (unitQuternion_ other))
  /\ (forall (A B C : Type) (f : A -> B) (g : B -> C)
             (mid : Quaternion B) (this : Quaternion C) (other : Quaternion A),
      Quaternion_call_Quaternion g this (fst (Quaternion_call_Quaternion f mid other))
      = Quaternion_call_Quaternion (fun a => g (f a)) this other)
  /\ (forall (A : Type) (this other : Quaternion A),
      Quaternion_call_Quaternion (fun a => a) this other = Quaternion_assign this other
      /\ fst (Quaternion_assign this other) = other).
Proof.
  split; [|split; [|split]].
  - intros A B cast this other. reflexivity.
  - intros A B cast this other. reflexivity.
  - intros A B C f g mid this other. reflexivity.
  - intros A this other. split; [reflexivity|].
    now rewrite Quaternion_assign_copies.
Qed.

(** ** Algebra of the real instance *)

Section Real_algebra.
Local Open Scope R_scope.

Lemma conjugate_involutive (q : Eigen.Quaternion R) :
  Eigen.conjugate (Eigen.conjugate q) = q.
Proof.
  destruct q as [x y z w]. unfold Eigen.conjugate, Eigen.Quaternion_wxyz; simpl.
  now rewrite !Ropp_involutive.
Qed.


Lemma coeffs_div_one (q : Eigen.Quaternion R) : Eigen.coeffs_div q 1 = q.
Proof.
  destruct q as [x y z w]. unfold Eigen.coeffs_div; simpl.
  f_equal; field.
Qed.


End Real_algebra.

(** ** Conjugation, normalization and inversion of a [Quaternion] *)

(** X4. [Quaternion::conjugate()] leaves in [this] the value
    [conjugated()] returns, and returns [*this], for every scalar type.
    Over the real numbers conjugation is an involution, in both forms, and
    leaves the norm unchanged. *)
Theorem Quaternion_conjugation_involutive :
  (forall (T : Type) (S : Scalar T) (q : Quaternion T),
      Quaternion_conjugate q = return_this (Quaternion_conjugated q))
  /\ (forall q : Quaternion R,
      Quaternion_conjugated (Quaternion_conjugated q) = q
      /\ fst (Quaternion_conjugate (fst (Quaternion_conjugate q))) = q
      /\ Quaternion_norm (Quaternion_conjugated q) = Quaternion_norm q).
Proof.
  assert (InPlace : forall (T : Type) (S : Scalar T) (q : Quaternion T),
             Quaternion_conjugate q = return_this (Quaternion_conjugated q)).
  { intros T S q. unfold Quaternion_conjugate. now rewrite Quaternion_assign_copies. }
  assert (Twice : forall q : Quaternion R,
             Quaternion_conjugated (Quaternion_conjugated q) = q).
  { intros [q]. unfold Quaternion_conjugated, Quaternion_ctor_Base; simpl.
    now rewrite conjugate_involutive. }
  split; [exact InPlace|]. intros q. split; [apply Twice|]. split.
  - rewrite !InPlace. simpl. apply Twice.
  - apply norm_conjugate.
Qed.

(** X8. For a quaternion whose squared coefficients sum to exactly 1,
    [inverted()] returns what [conjugated()] returns, [invert()] leaves in
    [this] what [conjugate()] leaves, and the inverse has norm 1.  Scalars
    are the real numbers; the division is by 1 and nothing is rounded. *)
Theorem Quaternion_inverted_of_unit (q : Quaternion R) :
  Eigen.squaredNorm (Quaternion_toImplementation q) = 1%R ->
  Quaternion_inverted q = Quaternion_conjugated q
  /\ fst (Quaternion_invert q) = fst (Quaternion_conjugate q)
  /\ Quaternion_norm (Quaternion_inverted q) = 1%R.
Proof.
  intros Hs.
  assert (Hinv : Quaternion_inverted q = Quaternion_conjugated q).
  { unfold Quaternion_inverted, Quaternion_conjugated. f_equal.
    unfold Eigen.inverse. rewrite Hs.
    assert (Hg : sgtb 1%R szero = true) by (apply sgtb_R; simpl; lra).
    rewrite Hg. apply coeffs_div_one. }
  split; [exact Hinv|]. split.
  - unfold Quaternion_invert, Quaternion_conjugate.
    rewrite !Quaternion_assign_copies. exact Hinv.
  - rewrite Hinv. unfold Quaternion_norm, Quaternion_conjugated, Quaternion_ctor_Base;
      cbn [Quaternion_toImplementation].
    rewrite norm_conjugate, norm_R, Hs. apply sqrt_1.
Qed.

Lemma Quaternion_inverted_of_unit_witness :
  (Eigen.squaredNorm (Quaternion_toImplementation (Quaternion_ctor_wxyz (3 / 5) (4 / 5) 0 0)) = 1
   /\ Quaternion_inverted (Quaternion_ctor_wxyz (3 / 5) (4 / 5) 0 0)
      = Quaternion_conjugated (Quaternion_ctor_wxyz (3 / 5) (4 / 5) 0 0))%R.
Proof.
  assert (Hs : (Eigen.squaredNorm
                  (Quaternion_toImplementation (Quaternion_ctor_wxyz (3 / 5) (4 / 5) 0 0))
                = 1)%R)
    by (rewrite squaredNorm_R; simpl; field).
  split; [exact Hs|].
  exact (proj1 (@Quaternion_inverted_of_unit _ Hs)).
Defined.



(** ** Round trips and sibling paths of a [UnitQuaternion] *)

Section Wrapping.
Context {T : Type} `{Scalar T}.

(** Wrapping the quaternion a unit quaternion holds gives that unit
    quaternion back when its norm is within the tolerance. *)
Lemma UnitQuaternion_rewrap (b : build) (u : UnitQuaternion T) :
  out_of_tolerance (UnitQuaternion_norm u) = false ->
  out (UnitQuaternion_ctor_Quaternion b (unitQuternion_ u)) = Ok u.
Proof.
  intros Hu. destruct u as [[q]]. unfold UnitQuaternion_ctor_Quaternion.
  now apply checked_in_tolerance.
Qed.

Lemma UnitQuaternion_parts (u : UnitQuaternion T) :
  Quaternion_ctor_wxyz (UnitQuaternion_w u) (UnitQuaternion_x u)
    (UnitQuaternion_y u) (UnitQuaternion_z u) = unitQuternion_ u
  /\ Quaternion_ctor_w_imag (UnitQuaternion_getReal u) (UnitQuaternion_getImaginary u)
     = unitQuternion_ u
  /\ Quaternion_ctor_Base (UnitQuaternion_toImplementation u) = unitQuternion_ u.
Proof. destruct u as [[[x y z w]]]. repeat split. Qed.
End Wrapping.

(** X10. A unit quaternion whose norm is within the tolerance is rebuilt,
    in either build, by each checking constructor from what its accessors
    return: from [toImplementation()], from its four coefficients, from
    [getReal()] and [getImaginary()], and from the [Quaternion] it was
    assigned to with [Quaternion::operator=].  In a debug build the
    reconstruction throws exactly when the norm is out of tolerance. *)
Theorem UnitQuaternion_rebuilt_from_parts :
  (forall (T : Type) (S : Scalar T) (b : build) (u : UnitQuaternion T),
      out_of_tolerance (UnitQuaternion_norm u) = false ->
      out (UnitQuaternion_ctor_Implementation b (UnitQuaternion_toImplementation u)) = Ok u
      /\ out (UnitQuaternion_ctor_wxyz b (UnitQuaternion_w u) (UnitQuaternion_x u)
                (UnitQuaternion_y u) (UnitQuaternion_z u)) = Ok u
      /\ out (UnitQuaternion_ctor_w_imag b (UnitQuaternion_getReal u)
                (UnitQuaternion_getImaginary u)) = Ok u
      /\ (forall this : Quaternion T,
             fst (Quaternion_assign_UnitQuaternion this u) = unitQuternion_ u
             /\ out (UnitQuaternion_ctor_Quaternion b
                       (fst (Quaternion_assign_UnitQuaternion this u))) = Ok u))
  /\ (forall (T : Type) (S : Scalar T) (u : UnitQuaternion T),
      raises (UnitQuaternion_ctor_Implementation DBG (UnitQuaternion_toImplementation u))
      = out_of_tolerance (UnitQuaternion_norm u)).
Proof.
  split.
  - intros T S b u Hu.
    destruct (UnitQuaternion_parts u) as (Hw & Hi & Hb).
    pose proof (UnitQuaternion_rewrap b u Hu) as Hr.
    assert (Hassign : forall this : Quaternion T,
               fst (Quaternion_assign_UnitQuaternion this u) = unitQuternion_ u).
    { intros this. unfold Quaternion_assign_UnitQuaternion.
      rewrite Quaternion_assign_copies. simpl. exact Hb. }
    split; [|split; [|split]].
    + rewrite UnitQuaternion_ctor_Implementation_Quaternion, Hb. exact Hr.
    + change (out (UnitQuaternion_ctor_Quaternion b
                     (Quaternion_ctor_wxyz (UnitQuaternion_w u) (UnitQuaternion_x u)
                        (UnitQuaternion_y u) (UnitQuaternion_z u))) = Ok u).
      rewrite Hw. exact Hr.
    + change (out (UnitQuaternion_ctor_Quaternion b
                     (Quaternion_ctor_w_imag (UnitQuaternion_getReal u)
                        (UnitQuaternion_getImaginary u))) = Ok u).
      rewrite Hi. exact Hr.
    + intros this. split; [apply Hassign|]. rewrite Hassign. exact Hr.
  - intros T S u. apply raises_checked_DBG.
Qed.

Lemma UnitQuaternion_rebuilt_from_parts_witness :
  out_of_tolerance (UnitQuaternion_norm (identity_unit float)) = false
  /\ out (UnitQuaternion_ctor_Implementation DBG
            (UnitQuaternion_toImplementation (identity_unit float)))
     = Ok (identity_unit float).
Proof.
  assert (Hu : out_of_tolerance (UnitQuaternion_norm (identity_unit float)) = false)
    by (vm_compute; reflexivity).
  split; [exact Hu|].
  exact (proj1 (proj1 UnitQuaternion_rebuilt_from_parts float Scalar_double DBG
                  (identity_unit float) Hu)).
Defined.

(** X11. The two forms of conjugation of a unit quaternion give the same
    value: whenever [conjugated()] returns, in either build, it returns what
    [conjugate()] leaves in [this]; in a release build it always returns;
    in a debug build it throws exactly when the norm of that value is out
    of tolerance. *)
Theorem UnitQuaternion_conjugated_agrees_with_conjugate :
  (forall (T : Type) (S : Scalar T) (b : build) (u c : UnitQuaternion T),
      out (UnitQuaternion_conjugated b u) = Ok c ->
      c = fst (UnitQuaternion_conjugate u))
  /\ (forall (T : Type) (S : Scalar T) (u : UnitQuaternion T),
      out (UnitQuaternion_conjugated NDEBUG u) = Ok (fst (UnitQuaternion_conjugate u))
      /\ raises (UnitQuaternion_conjugated DBG u)
         = out_of_tolerance (UnitQuaternion_norm (fst (UnitQuaternion_conjugate u)))).
Proof.
  split.
  - intros T S b u c Hc. rewrite UnitQuaternion_conjugate_unchecked; simpl.
    destruct b.
    + rewrite UnitQuaternion_conjugated_DBG in Hc; simpl in Hc.
      destruct (out_of_tolerance
                  (Quaternion_norm (Quaternion_conjugated (unitQuternion_ u))));
        [discriminate|]. now injection Hc.
    + destruct u as [[q]]. simpl in Hc. now injection Hc.
  - intros T S u. rewrite UnitQuaternion_conjugate_unchecked; cbn [fst]. split.
    + now destruct u as [[q]].
    + rewrite UnitQuaternion_conjugated_DBG.
      unfold raises, UnitQuaternion_norm; cbn [out unitQuternion_].
      now destruct (out_of_tolerance
                      (Quaternion_norm (Quaternion_conjugated (unitQuternion_ u)))).
Qed.

Lemma UnitQuaternion_conjugated_agrees_with_conjugate_witness :
  (out (UnitQuaternion_conjugated DBG (identity_unit float))
   = Ok (MkUnitQuaternion (Quaternion_ctor_wxyz 1 (-0) (-0) (-0)))
   /\ MkUnitQuaternion (Quaternion_ctor_wxyz 1 (-0) (-0) (-0))
      = fst (UnitQuaternion_conjugate (identity_unit float)))%float.
Proof.
  assert (Hc : (out (UnitQuaternion_conjugated DBG (identity_unit float))
                = Ok (MkUnitQuaternion (Quaternion_ctor_wxyz 1 (-0) (-0) (-0))))%float)
    by (vm_compute; reflexivity).
  split; [exact Hc|].
  exact (proj1 UnitQuaternion_conjugated_agrees_with_conjugate float Scalar_double DBG
           (identity_unit float) _ Hc).
Defined.

(** X12. Conjugating a unit quaternion in place twice gives it back, and
    conjugating in place leaves its norm, hence whether it is within the
    tolerance, unchanged.  Scalars are the real numbers. *)
Theorem UnitQuaternion_conjugate_keeps_invariant :
  forall u : UnitQuaternion R,
    fst (UnitQuaternion_conjugate (fst (UnitQuaternion_conjugate u))) = u
    /\ UnitQuaternion_norm (fst (UnitQuaternion_conjugate u)) = UnitQuaternion_norm u
    /\ out_of_tolerance (UnitQuaternion_norm (fst (UnitQuaternion_conjugate u)))
       = out_of_tolerance (UnitQuaternion_norm u).
Proof.
  intros u.
  assert (Hn : UnitQuaternion_norm (fst (UnitQuaternion_conjugate u)) = UnitQuaternion_norm u).
  { rewrite UnitQuaternion_conjugate_unchecked. apply norm_conjugate. }
  split; [|split].
  - rewrite !UnitQuaternion_conjugate_unchecked. destruct u as [[q]]; simpl.
    unfold Quaternion_conjugated, Quaternion_ctor_Base; simpl.
    now rewrite conjugate_involutive.
  - exact Hn.
  - now rewrite Hn.
Qed.

(** X13. The converting [operator()] from a [Quaternion<PrimType_In>] writes
    before it checks: whatever the build and whether or not it throws,
    [this] holds the converted coefficients afterwards and nothing of what
    it held before; in a debug build it throws exactly when the value it has
    left in [this] is out of tolerance, in a release build never.  In
    binary64 arithmetic, converting (2,0,0,0) into the identity throws and
    leaves (2,0,0,0) in it. *)
Theorem UnitQuaternion_conversion_writes_before_check :
  (forall (A B : Type) (S : Scalar B) (cast : A -> B) (b : build)
          (this : UnitQuaternion B) (other : Quaternion A),
      fst (UnitQuaternion_call_Quaternion cast b this other)
      = MkUnitQuaternion
          (Quaternion_ctor_wxyz (cast (Quaternion_w other)) (cast (Quaternion_x other))
             (cast (Quaternion_y other)) (cast (Quaternion_z other))))
  /\ (forall (A B : Type) (S : Scalar B) (cast : A -> B)
             (this : UnitQuaternion B) (other : Quaternion A),
      raises (snd (UnitQuaternion_call_Quaternion cast DBG this other))
      = out_of_tolerance
          (UnitQuaternion_norm (fst (UnitQuaternion_call_Quaternion cast DBG this other)))
      /\ raises (snd (UnitQuaternion_call_Quaternion cast NDEBUG this other)) = false)
  /\ (raises (snd (UnitQuaternion_call_Quaternion (fun a => a) DBG (identity_unit float)
                     (Quaternion_ctor_wxyz 2 0 0 0))) = true
      /\ fst (UnitQuaternion_call_Quaternion (fun a => a) DBG (identity_unit float)
                (Quaternion_ctor_wxyz 2 0 0 0))
         = MkUnitQuaternion (Quaternion_ctor_wxyz 2 0 0 0))%float.
Proof.
  split; [|split].
  - intros A B S cast b this other. reflexivity.
  - intros A B S cast this other. split; [|reflexivity].
    unfold UnitQuaternion_call_Quaternion; cbv zeta; cbn [snd fst].
    apply raises_checked_DBG.
  - split; vm_compute; reflexivity.
Qed.

(** ** Normalize-then-wrap and the other operations *)

Section Real_wrapping.
Local Open Scope R_scope.

(** What [toUnitQuaternion()] returns for a quaternion of nonzero norm. *)
Lemma toUnitQuaternion_out (b : build) (q : Quaternion R) :
  Quaternion_norm q <> 0 ->
  out (Quaternion_toUnitQuaternion b q) = Ok (MkUnitQuaternion (Quaternion_normalized q)).
Proof.
  intros Hn. unfold Quaternion_toUnitQuaternion, UnitQuaternion_ctor_Implementation.
  apply checked_in_tolerance.
  change (out_of_tolerance (Eigen.norm (Eigen.normalized (Quaternion_toImplementation q)))
          = false).
  rewrite (@norm_normalized _ Hn). apply in_tolerance_one.
Qed.

Lemma Quaternion_normalized_unit (q : Quaternion R) :
  Quaternion_norm q = 1 -> Quaternion_normalized q = q.
Proof.
  intros H1. destruct q as [q]. unfold Quaternion_normalized, Quaternion_ctor_Base.
  f_equal. unfold Eigen.normalized.
  change (Eigen.norm (Quaternion_toImplementation (MkQuaternion q)))
    with (Quaternion_norm (MkQuaternion q)).
  rewrite H1. apply coeffs_div_one.
Qed.

End Real_wrapping.

(** X14. On a quaternion [q] of norm 1, [q.toUnitQuaternion()] is the
    explicit construction [UnitQuaternion(q)]: normalization changes
    nothing, and both return [q] wrapped, in either build.  Scalars are the
    real numbers. *)
Theorem toUnitQuaternion_of_unit (b : build) (q : Quaternion R) :
  Quaternion_norm q = 1%R ->
  Quaternion_normalized q = q
  /\ Quaternion_toUnitQuaternion b q = UnitQuaternion_ctor_Quaternion b q
  /\ out (Quaternion_toUnitQuaternion b q) = Ok (MkUnitQuaternion q).
Proof.
  intros H1. pose proof (@Quaternion_normalized_unit _ H1) as Hq.
  assert (Hn : Quaternion_norm q <> 0%R) by (rewrite H1; lra).
  split; [exact Hq|]. split.
  - change (Quaternion_toUnitQuaternion b q)
      with (UnitQuaternion_ctor_Quaternion b (Quaternion_normalized q)).
    now rewrite Hq.
  - rewrite (@toUnitQuaternion_out b _ Hn). now rewrite Hq.
Qed.

Lemma toUnitQuaternion_of_unit_witness :
  Quaternion_norm (Quaternion_ctor_wxyz 1 0 0 0)%R = 1%R
  /\ out (Quaternion_toUnitQuaternion DBG (Quaternion_ctor_wxyz 1 0 0 0)%R)
     = Ok (MkUnitQuaternion (Quaternion_ctor_wxyz 1 0 0 0)%R).
Proof.
  assert (H1 : Quaternion_norm (Quaternion_ctor_wxyz 1 0 0 0)%R = 1%R)
    by (apply Quaternion_norm_real_axis; lra).
  split; [exact H1|].
  exact (proj2 (proj2 (@toUnitQuaternion_of_unit DBG _ H1))).
Defined.



(** ** The accessors *)

(** X16. The non-const accessors of [Quaternion] refer to four separate
    coefficients, the ones the const accessors read.  A write through one
    of them replaces that coefficient and no other, so that a value written
    is read back by the same accessor and the three other accessors read
    what they read before; writes through two different accessors can be
    swapped, for each of the six pairs; of two writes through the same
    accessor the later one stays; and writing back what was read changes
    nothing.  Each accessor of [UnitQuaternion], const or not, is the
    accessor of the same name of the quaternion it holds. *)
Theorem accessors_are_independent :
  forall (T : Type) (q : Quaternion T) (u : UnitQuaternion T) (a b : T),
    (load Quaternion_w_ref q = Quaternion_w q
     /\ load Quaternion_x_ref q = Quaternion_x q
     /\ load Quaternion_y_ref q = Quaternion_y q
     /\ load Quaternion_z_ref q = Quaternion_z q)
    /\ (store Quaternion_w_ref a q
        = Quaternion_ctor_wxyz a (Quaternion_x q) (Quaternion_y q) (Quaternion_z q)
        /\ store Quaternion_x_ref a q
           = Quaternion_ctor_wxyz (Quaternion_w q) a (Quaternion_y q) (Quaternion_z q)
        /\ store Quaternion_y_ref a q
           = Quaternion_ctor_wxyz (Quaternion_w q) (Quaternion_x q) a (Quaternion_z q)
        /\ store Quaternion_z_ref a q
           = Quaternion_ctor_wxyz (Quaternion_w q) (Quaternion_x q) (Quaternion_y q) a)
    /\ (Quaternion_w (store Quaternion_w_ref a q) = a
        /\ Quaternion_x (store Quaternion_w_ref a q) = Quaternion_x q
        /\ Quaternion_y (store Quaternion_w_ref a q) = Quaternion_y q
        /\ Quaternion_z (store Quaternion_w_ref a q) = Quaternion_z q)
    /\ (Quaternion_w (store Quaternion_x_ref a q) = Quaternion_w q
        /\ Quaternion_x (store Quaternion_x_ref a q) = a
        /\ Quaternion_y (store Quaternion_x_ref a q) = Quaternion_y q
        /\ Quaternion_z (store Quaternion_x_ref a q) = Quaternion_z q)
    /\ (Quaternion_w (store Quaternion_y_ref a q) = Quaternion_w q
        /\ Quaternion_x (store Quaternion_y_ref a q) = Quaternion_x q
        /\ Quaternion_y (store Quaternion_y_ref a q) = a
        /\ Quaternion_z (store Quaternion_y_ref a q) = Quaternion_z q)
    /\ (Quaternion_w (store Quaternion_z_ref a q) = Quaternion_w q
        /\ Quaternion_x (store Quaternion_z_ref a q) = Quaternion_x q
        /\ Quaternion_y (store Quaternion_z_ref a q) = Quaternion_y q
        /\ Quaternion_z (store Quaternion_z_ref a q) = a)
    /\ (store Quaternion_w_ref a (store Quaternion_x_ref b q)
        = store Quaternion_x_ref b (store Quaternion_w_ref a q)
        /\ store Quaternion_w_ref a (store Quaternion_y_ref b q)
           = store Quaternion_y_ref b (store Quaternion_w_ref a q)
        /\ store Quaternion_w_ref a (store Quaternion_z_ref b q)
           = store Quaternion_z_ref b (store Quaternion_w_ref a q)
        /\ store Quaternion_x_ref a (store Quaternion_y_ref b q)
           = store Quaternion_y_ref b (store Quaternion_x_ref a q)
        /\ store Quaternion_x_ref a (store Quaternion_z_ref b q)
           = store Quaternion_z_ref b (store Quaternion_x_ref a q)
        /\ store Quaternion_y_ref a (store Quaternion_z_ref b q)
           = store Quaternion_z_ref b (store Quaternion_y_ref a q))
    /\ (store Quaternion_w_ref a (store Quaternion_w_ref b q) = store Quaternion_w_ref a q
        /\ store Quaternion_x_ref a (store Quaternion_x_ref b q) = store Quaternion_x_ref a q
        /\ store Quaternion_y_ref a (store Quaternion_y_ref b q) = store Quaternion_y_ref a q
        /\ store Quaternion_z_ref a (store Quaternion_z_ref b q) = store Quaternion_z_ref a q)
    /\ (store Quaternion_w_ref (Quaternion_w q) q = q
        /\ store Quaternion_x_ref (Quaternion_x q) q = q
        /\ store Quaternion_y_ref (Quaternion_y q) q = q
        /\ store Quaternion_z_ref (Quaternion_z q) q = q)
    /\ (UnitQuaternion_w u = Quaternion_w (unitQuternion_ u)
        /\ UnitQuaternion_x u = Quaternion_x (unitQuternion_ u)
        /\ UnitQuaternion_y u = Quaternion_y (unitQuternion_ u)
        /\ UnitQuaternion_z u = Quaternion_z (unitQuternion_ u))
    /\ (load UnitQuaternion_w_ref u = Quaternion_w (unitQuternion_ u)
        /\ load UnitQuaternion_x_ref u = Quaternion_x (unitQuternion_ u)
        /\ load UnitQuaternion_y_ref u = Quaternion_y (unitQuternion_ u)
        /\ load UnitQuaternion_z_ref u = Quaternion_z (unitQuternion_ u))
    /\ (unitQuternion_ (store UnitQuaternion_w_ref a u)
        = store Quaternion_w_ref a (unitQuternion_ u)
        /\ unitQuternion_ (store UnitQuaternion_x_ref a u)
           = store Quaternion_x_ref a (unitQuternion_ u)
        /\ unitQuternion_ (store UnitQuaternion_y_ref a u)
           = store Quaternion_y_ref a (unitQuternion_ u)
        /\ unitQuternion_ (store UnitQuaternion_z_ref a u)
           = store Quaternion_z_ref a (unitQuternion_ u)).
Proof.
  intros T [[x y z w]] [[[x' y' z' w']]] a b. repeat split.
Qed.

(** ** How many checks a path executes *)

(** X17. In a debug build each checking path executes exactly one unit-norm
    check, whether it throws or not: the five constructors from raw input,
    the converting [operator()] from a [Quaternion], [conjugated()] and
    [toUnitQuaternion()].  In a release build the same paths execute none
    and return their input wrapped, whatever its norm. *)
Theorem checking_paths_check_once :
  forall (T : Type) (S : Scalar T),
    (forall w x y z : T,
        checks (UnitQuaternion_ctor_wxyz DBG w x y z) = 1
        /\ UnitQuaternion_ctor_wxyz NDEBUG w x y z
           = ret (MkUnitQuaternion (Quaternion_ctor_wxyz w x y z)))
    /\ (forall (w : T) (imag : Vector3 T),
        checks (UnitQuaternion_ctor_w_imag DBG w imag) = 1
        /\ UnitQuaternion_ctor_w_imag NDEBUG w imag
           = ret (MkUnitQuaternion (Quaternion_ctor_w_imag w imag)))
    /\ (forall v : Vector4 T,
        checks (UnitQuaternion_ctor_Vector4 DBG v) = 1
        /\ UnitQuaternion_ctor_Vector4 NDEBUG v
           = ret (MkUnitQuaternion (Quaternion_ctor_Vector4 v)))
    /\ (forall q : Quaternion T,
        checks (UnitQuaternion_ctor_Quaternion DBG q) = 1
        /\ UnitQuaternion_ctor_Quaternion NDEBUG q = ret (MkUnitQuaternion q)
        /\ checks (Quaternion_toUnitQuaternion DBG q) = 1
        /\ Quaternion_toUnitQuaternion NDEBUG q
           = ret (MkUnitQuaternion (Quaternion_normalized q)))
    /\ (forall q : Eigen.Quaternion T,
        checks (UnitQuaternion_ctor_Implementation DBG q) = 1
        /\ UnitQuaternion_ctor_Implementation NDEBUG q
           = ret (MkUnitQuaternion (Quaternion_ctor_Base q)))
    /\ (forall u : UnitQuaternion T,
        checks (UnitQuaternion_conjugated DBG u) = 1
        /\ UnitQuaternion_conjugated NDEBUG u
           = ret (MkUnitQuaternion (Quaternion_conjugated (unitQuternion_ u))))
    /\ (forall (A : Type) (cast : A -> T) (this : UnitQuaternion T) (other : Quaternion A),
        checks (snd (UnitQuaternion_call_Quaternion cast DBG this other)) = 1
        /\ snd (UnitQuaternion_call_Quaternion cast NDEBUG this other) = ret this_ref).
Proof.
  intros T S.
  assert (Once : forall (A : Type) (n : T) (msg : string) (a : A),
             checks (KINDER_ASSERT_SCALAR_NEAR_DBG DBG n sone s1e_4 msg ;; ret a) = 1)
    by (intros A n msg a; now rewrite checked_DBG).
  repeat split; try apply Once; try reflexivity.
  - now destruct q.
Qed.
